(** * goapi: the authorization middleware, the balance handler and the mock store

    A shallow embedding of the request pipeline of the goapi service:

    - [api]         api/api.go: response types and the error writers;
    - [tools]       internal/tools/mockdb.go: the store interface and the
                    in-memory reference store;
    - [middleware]  the [Authorization] middleware (internal/middleware);
    - [handlers]    the [GetCoinBalance] handler (internal/handlers).

    Go state is threaded explicitly: the package-level tables, the cells that
    escaped locals live in, the response writer of the request being served,
    the numbers the runtime draws when it ranges over a map and a trace of the
    observable effects form a [World]; a computation is a function from a
    [World] to a result (a value or a panic) and a [World]. *)

From Stdlib Require Import ZArith String Ascii List Lia DecimalString.
From Stdlib Require DecimalPos DecimalZ.
From stdpp Require Import base option list gmap strings.

(** ** Go values *)

(** An [error] is nil or carries the text its [Error()] method returns. *)
Definition error : Type := option string.

(** A pointer is nil or the address of a cell. *)
Definition loc : Type := nat.
Definition ptr : Type := option loc.

(** [url.Values] and [http.Header]: keys to the list of their values. *)
Abbreviation Values := (gmap string (list string)).

(** [Values.Get] and [Header.Get]: the first value of the key, or the empty
    string.  Header keys are stored in canonical form; the only key this
    program reads, Authorization, is canonical already. *)
Definition Get (v : Values) (key : string) : string :=
  match v !! key with
  | Some (x :: _) => x
  | _ => EmptyString
  end.

(** The part of [*http.Request] the pipeline reads: [r.URL.Query()] and
    [r.Header]. *)
Record Request := {
  Query : Values;
  Header : Values;
}.

(** [http.ResponseWriter].  [header] is the map [w.Header()] hands out;
    [status] is set once the header has been written, and [sentHeader] is the
    copy of the header map that went out with it. *)
Record ResponseWriter := {
  header : Values;
  status : option Z;
  sentHeader : Values;
  body : string;
}.

Definition newResponseWriter : ResponseWriter :=
  {| header := ∅; status := None; sentHeader := ∅; body := EmptyString |}.

(** ** The store's records (internal/tools) *)

(** [LoginDetails] and [CoinDetails] are declared in
    internal/tools/database.go; their fields are the ones the literals of the
    mock store set.  [Coins] is the [int64] the handler copies into
    [Balance]. *)

Module LoginDetails.
Record t := { AuthToken : string; Username : string }.
End LoginDetails.

Module CoinDetails.
Record t := { Coins : Z; Username : string }.
End CoinDetails.

(** ** The world *)

Inductive Method := mGetUserLoginDetails | mGetUserCoins.

(** Observable effects: a [time.Sleep], a lookup made through the store
    interface, and an error handed to [log.Error] (the decoder's error, given
    by the query keys it holds an error for). *)
Inductive Event :=
| EvSleep (d : Z)
| EvCall (m : Method) (username : string)
| EvLogError (invalid : gset string).

(** [rand] is the supply of numbers from which the runtime takes the order
    of a [range] over a map. *)
Record World := {
  var_mockLoginDetails : gmap string LoginDetails.t;
  var_mockCoinDetails : gmap string CoinDetails.t;
  loginCells : list LoginDetails.t;
  coinCells : list CoinDetails.t;
  trace : list Event;
  w : ResponseWriter;
  rand : list nat;
}.

Definition set_loginCells (c : list LoginDetails.t) (s : World) : World :=
  {| var_mockLoginDetails := var_mockLoginDetails s;
     var_mockCoinDetails := var_mockCoinDetails s;
     loginCells := c; coinCells := coinCells s; trace := trace s; w := w s;
     rand := rand s |}.

Definition set_coinCells (c : list CoinDetails.t) (s : World) : World :=
  {| var_mockLoginDetails := var_mockLoginDetails s;
     var_mockCoinDetails := var_mockCoinDetails s;
     loginCells := loginCells s; coinCells := c; trace := trace s; w := w s;
     rand := rand s |}.

Definition set_trace (t : list Event) (s : World) : World :=
  {| var_mockLoginDetails := var_mockLoginDetails s;
     var_mockCoinDetails := var_mockCoinDetails s;
     loginCells := loginCells s; coinCells := coinCells s; trace := t; w := w s;
     rand := rand s |}.

Definition set_w (rw : ResponseWriter) (s : World) : World :=
  {| var_mockLoginDetails := var_mockLoginDetails s;
     var_mockCoinDetails := var_mockCoinDetails s;
     loginCells := loginCells s; coinCells := coinCells s; trace := trace s; w := rw;
     rand := rand s |}.

Definition set_rand (n : list nat) (s : World) : World :=
  {| var_mockLoginDetails := var_mockLoginDetails s;
     var_mockCoinDetails := var_mockCoinDetails s;
     loginCells := loginCells s; coinCells := coinCells s; trace := trace s; w := w s;
     rand := n |}.

(** ** Computations *)

Inductive Result (A : Type) :=
| Ok (a : A)
| Panic (msg : string).
Arguments Ok {A} a.
Arguments Panic {A} msg.

Definition M (A : Type) : Type := World → Result A * World.

#[export] Instance M_ret : MRet M := λ A a s, (Ok a, s).

#[export] Instance M_bind : MBind M := λ A B f m s,
  match m s with
  | (Ok a, s') => f a s'
  | (Panic msg, s') => (Panic msg, s')
  end.

Definition panic {A} (msg : string) : M A := λ s, (Panic msg, s).

Definition gets {A} (f : World → A) : M A := λ s, (Ok (f s), s).

Definition modify (f : World → World) : M unit := λ s, (Ok tt, f s).

Definition emit (e : Event) : M unit := modify (λ s, set_trace (trace s ++ [e]) s).

Definition nilDereference : string :=
  "runtime error: invalid memory address or nil pointer dereference".

(** [for k, v := range m]: every entry once, in an order the language leaves
    open and the runtime draws anew for each loop.  [permute] builds the order
    from the drawn numbers by insertion (every order of the entries arises
    from some numbers); [rangeMap] uses up one number per entry. *)
Fixpoint insertAt {A} (i : nat) (x : A) (l : list A) : list A :=
  match i, l with
  | S i', y :: l' => y :: insertAt i' x l'
  | _, _ => x :: l
  end.

Fixpoint permute {A} (seed : list nat) (l : list A) : list A :=
  match l with
  | [] => []
  | x :: l' => insertAt (hd 0 seed) x (permute (tl seed) l')
  end.

Definition rangeOrder (m : Values) (s : World) : list (string * list string) :=
  permute (rand s) (map_to_list m).

Definition rangeMap (m : Values) : M (list (string * list string)) := λ s,
  (Ok (rangeOrder m s), set_rand (drop (length (map_to_list m)) (rand s)) s).

(** [&v] for a local [v] that outlives its function: a new cell. *)
Definition new_LoginDetails (v : LoginDetails.t) : M loc := λ s,
  (Ok (length (loginCells s)), set_loginCells (loginCells s ++ [v]) s).

Definition new_CoinDetails (v : CoinDetails.t) : M loc := λ s,
  (Ok (length (coinCells s)), set_coinCells (coinCells s ++ [v]) s).

(** [*p]: reading through nil panics. *)
Definition load_LoginDetails (p : ptr) : M LoginDetails.t := λ s,
  match p with
  | None => (Panic nilDereference, s)
  | Some l =>
      match loginCells s !! l with
      | Some v => (Ok v, s)
      | None => (Panic nilDereference, s)
      end
  end.

Definition load_CoinDetails (p : ptr) : M CoinDetails.t := λ s,
  match p with
  | None => (Panic nilDereference, s)
  | Some l =>
      match coinCells s !! l with
      | Some v => (Ok v, s)
      | None => (Panic nilDereference, s)
      end
  end.

(** [*p = v] *)
Definition store_LoginDetails (l : loc) (v : LoginDetails.t) : M unit :=
  modify (λ s, set_loginCells (<[l := v]> (loginCells s)) s).

Definition store_CoinDetails (l : loc) (v : CoinDetails.t) : M unit :=
  modify (λ s, set_coinCells (<[l := v]> (coinCells s)) s).

(** ** strconv *)

Module strconv.
(** An integer in decimal, with a minus sign when negative. *)
Definition Itoa (z : Z) : string := NilZero.string_of_int (Z.to_int z).
End strconv.

(** ** net/http: the response writer *)

Module http.
Definition StatusOK : Z := 200.
Definition StatusBadRequest : Z := 400.
Definition StatusInternalServerError : Z := 500.

(** [w.Header().Set(key, value)] *)
Definition Header_Set (key value : string) : M unit :=
  modify (λ s,
    set_w {| header := <[key := [value]]> (header (w s));
             status := status (w s);
             sentHeader := sentHeader (w s);
             body := body (w s) |} s).

Definition bodyAllowedForStatus (code : Z) : bool :=
  if ((100 <=? code) && (code <=? 199))%Z then false
  else if (code =? 204)%Z then false
  else if (code =? 304)%Z then false
  else true.

(** The entries of the handler's header map that go out under a status: a
    304 goes without Content-Type, Content-Length and Transfer-Encoding, any
    other status that allows no body without the last two. *)
Definition sentUnder (code : Z) (h : Values) : Values :=
  if (code =? 304)%Z then
    delete "Content-Type" (delete "Content-Length" (delete "Transfer-Encoding" h))
  else if bodyAllowedForStatus code then h
  else delete "Content-Length" (delete "Transfer-Encoding" h).

(** [w.WriteHeader(code)]: ignored once a header is out; a code outside
    100..999 panics, the code being part of the panic value; an informational
    code other than 101 leaves the final header still to be written. *)
Definition WriteHeader (code : Z) : M unit := λ s,
  match status (w s) with
  | Some _ => (Ok tt, s)
  | None =>
      if ((code <? 100) || (999 <? code))%Z then
        (Panic ("invalid WriteHeader code " +:+ strconv.Itoa code), s)
      else if ((100 <=? code) && (code <=? 199) && negb (code =? 101))%Z then
        (Ok tt, s)
      else
        (Ok tt, set_w {| header := header (w s);
                         status := Some code;
                         sentHeader := sentUnder code (header (w s));
                         body := body (w s) |} s)
  end.

Definition ErrBodyNotAllowed : error :=
  Some "http: request method or response status code does not allow body".

(** [w.Write(data)]: the first write sends the header with status 200 when
    none was sent; a status that allows no body drops the data. *)
Definition Write (data : string) : M error :=
  st ← gets (λ s, status (w s));
  (match st with None => WriteHeader StatusOK | Some _ => mret tt end);;
  if String.eqb data EmptyString then mret None
  else
    st ← gets (λ s, status (w s));
    if bodyAllowedForStatus (default StatusOK st) then
      modify (λ s,
        set_w {| header := header (w s);
                 status := status (w s);
                 sentHeader := sentHeader (w s);
                 body := body (w s) +:+ data |} s);;
      mret None
    else mret ErrBodyNotAllowed.
End http.

(** ** encoding/json *)

Module json.
Definition quote : ascii := "034"%char.
Definition backslash : ascii := "092"%char.
Definition newline : string := String "010"%char EmptyString.

Definition hex (n : N) : ascii :=
  match n with
  | 0 => "0" | 1 => "1" | 2 => "2" | 3 => "3" | 4 => "4" | 5 => "5"
  | 6 => "6" | 7 => "7" | 8 => "8" | 9 => "9" | 10 => "a" | 11 => "b"
  | 12 => "c" | 13 => "d" | 14 => "e" | _ => "f"
  end%N%char.

(** One byte below 0x80 inside a JSON string, as the encoder writes it (HTML
    escaping is on by default). *)
Definition escape (c : ascii) : string :=
  let n := N_of_ascii c in
  if (Ascii.eqb c quote || Ascii.eqb c backslash)%bool then
    String backslash (String c EmptyString)
  else if (n =? 8)%N then String backslash "b"
  else if (n =? 12)%N then String backslash "f"
  else if (n =? 10)%N then String backslash "n"
  else if (n =? 13)%N then String backslash "r"
  else if (n =? 9)%N then String backslash "t"
  else if ((n <? 32) || (n =? 60) || (n =? 62) || (n =? 38))%N then
    String backslash
      (String "u" (String "0" (String "0"
        (String (hex (N.shiftr n 4)) (String (hex (N.land n 15)) EmptyString)))))
  else String c EmptyString.

Definition between (lo hi : N) (c : ascii) : bool :=
  ((lo <=? N_of_ascii c) && (N_of_ascii c <=? hi))%N.

(** UTF-8: for a first byte that starts a character of several bytes, the
    range its second byte must lie in and the length of the character. *)
Definition utf8First (c : ascii) : option (N * N * nat) :=
  let n := N_of_ascii c in
  if between 194%N 223%N c then Some (128%N, 191%N, 2)
  else if (n =? 224)%N then Some (160%N, 191%N, 3)
  else if between 225%N 236%N c then Some (128%N, 191%N, 3)
  else if (n =? 237)%N then Some (128%N, 159%N, 3)
  else if between 238%N 239%N c then Some (128%N, 191%N, 3)
  else if (n =? 240)%N then Some (144%N, 191%N, 4)
  else if between 241%N 243%N c then Some (128%N, 191%N, 4)
  else if (n =? 244)%N then Some (128%N, 143%N, 4)
  else None.

Definition replacement : string :=
  String backslash (String "u" (String "f" (String "f" (String "f" (String "d" EmptyString))))).

(** The characters of a string between its quotes: a byte below 0x80 goes
    through [escape]; a byte that starts no valid UTF-8 character is written
    as the escape of U+FFFD; U+2028 and U+2029 (E2 80 A8 and E2 80 A9) are
    written as escapes; every other character of several bytes is copied. *)
Fixpoint appendString (s : string) : string :=
  match s with
  | EmptyString => EmptyString
  | String c1 t1 =>
      if (N_of_ascii c1 <? 128)%N then escape c1 +:+ appendString t1
      else
        let invalid := replacement +:+ appendString t1 in
        match utf8First c1, t1 with
        | Some (lo, hi, size), String c2 t2 =>
            if negb (between lo hi c2) then invalid
            else
              match size, t2 with
              | 2, _ => String c1 (String c2 (appendString t2))
              | 3, String c3 t3 =>
                  if negb (between 128%N 191%N c3) then invalid
                  else if ((N_of_ascii c1 =? 226) && (N_of_ascii c2 =? 128)
                           && ((N_of_ascii c3 =? 168) || (N_of_ascii c3 =? 169)))%N then
                    String backslash
                      (String "u" (String "2" (String "0" (String "2"
                        (String (hex (N.land (N_of_ascii c3) 15)) (appendString t3))))))
                  else String c1 (String c2 (String c3 (appendString t3)))
              | 4, String c3 (String c4 t4) =>
                  if between 128%N 191%N c3 && between 128%N 191%N c4 then
                    String c1 (String c2 (String c3 (String c4 (appendString t4))))
                  else invalid
              | _, _ => invalid
              end
        | _, _ => invalid
        end
  end.

Definition String_ (s : string) : string :=
  String quote (appendString s +:+ String quote EmptyString).

(** An integer, in decimal. *)
Definition Int (z : Z) : string := strconv.Itoa z.

(** A struct: its fields in declaration order under their Go names. *)
Fixpoint members (fields : list (string * string)) : string :=
  match fields with
  | [] => EmptyString
  | [(k, v)] => String_ k +:+ ":" +:+ v
  | (k, v) :: rest => String_ k +:+ ":" +:+ v +:+ "," +:+ members rest
  end.

Definition Object (fields : list (string * string)) : string :=
  "{" +:+ members fields +:+ "}".

(** [json.NewEncoder(w).Encode(v)], given the JSON text of [v]: the text
    and a newline go to the writer in one write. *)
Definition Encode (text : string) : M error := http.Write (text +:+ newline).

(** Reading aid for expected bodies: the text with every apostrophe
    standing for a double quote. *)
Fixpoint lit (s : string) : string :=
  match s with
  | EmptyString => EmptyString
  | String c t => String (if Ascii.eqb c "'"%char then quote else c) (lit t)
  end.
End json.

(** ** api/api.go *)

Module api.
Module CoinBalanceParams.
Record t := { Username : string }.
End CoinBalanceParams.

Module CoinBalanceResponse.
Record t := { StatusCode : Z; Balance : Z }.

Definition Marshal (v : t) : string :=
  json.Object [("StatusCode", json.Int (StatusCode v));
               ("Balance", json.Int (Balance v))].
End CoinBalanceResponse.

Module Error.
Record t := { StatusCode : Z; Message : string }.

Definition Marshal (v : t) : string :=
  json.Object [("StatusCode", json.Int (StatusCode v));
               ("Message", json.String_ (Message v))].
End Error.

Definition writeError (message : string) (statusCode : Z) : M unit :=
  let resp := {| Error.StatusCode := statusCode; Error.Message := message |} in
  http.Header_Set "Content-Type" "application/json";;
  http.WriteHeader statusCode;;
  json.Encode (Error.Marshal resp);;
  mret tt.

(** [err.Error()]: a nil error panics. *)
Definition Error_ (err : error) : M string :=
  match err with
  | Some msg => mret msg
  | None => panic nilDereference
  end.

Definition RequestErrorHandler (err : error) : M unit :=
  msg ← Error_ err;
  writeError msg http.StatusBadRequest.

Definition InternalErrorHandler : M unit :=
  writeError "An Unexpected Error Occured." http.StatusInternalServerError.
End api.

(** ** github.com/gorilla/schema *)

Module schema.
(** The error of a decoder, [MultiError]: a map from the keys of the query
    that could not be decoded to their errors, given here by its keys.  It is
    only tested against nil and logged; its text is not modelled. *)
Definition MultiError : Type := gset string.

(** A decoder for [CoinBalanceParams]: [decoder.Decode(&params, src)] fills
    the struct it is given and returns an error or nil.  The decoder reads
    [src] by ranging over it, so what it computes is a function of the
    entries in the order the loop visits them; that order is drawn by the
    caller below with [rangeMap].  The package is not part of this
    repository, so the handler takes its decoder as a parameter. *)
Record Decoder := {
  Decode : api.CoinBalanceParams.t → list (string * list string)
           → api.CoinBalanceParams.t * option MultiError;
}.

Definition toLower (c : ascii) : ascii :=
  let n := N_of_ascii c in
  if ((65 <=? n) && (n <=? 90))%N then ascii_of_N (n + 32) else c.

(** Case folding of a key: ASCII letters to lower case, and the two
    characters outside ASCII that fold to an ASCII letter (U+017F to s,
    U+212A to k). *)
Fixpoint fold (s : string) : string :=
  match s with
  | EmptyString => EmptyString
  | String c1 t1 =>
      match t1 with
      | String c2 t2 =>
          if ((N_of_ascii c1 =? 197) && (N_of_ascii c2 =? 191))%N then
            String "s" (fold t2)
          else
            match t2 with
            | String c3 t3 =>
                if ((N_of_ascii c1 =? 226) && (N_of_ascii c2 =? 132)
                    && (N_of_ascii c3 =? 170))%N then String "k" (fold t3)
                else String (toLower c1) (fold t1)
            | EmptyString => String (toLower c1) (fold t1)
            end
      | EmptyString => String (toLower c1) (fold t1)
      end
  end.

Definition EqualFold (a b : string) : bool := String.eqb (fold a) (fold b).

(** The package's default decoder on a struct whose one field is
    [Username string] without a tag.  A key names the field when it equals
    the field's name up to case ([strings.EqualFold]); the field takes the
    last value of such a key unless that value is empty (empty values are
    skipped, [ZeroEmpty] being off); any other key is entered in the error as
    an invalid path (unknown keys are not ignored by default), the valid keys
    being decoded all the same.  [decodeKey] is the body of the decoder's
    loop over the map for one key. *)
Definition decodeKey (acc : api.CoinBalanceParams.t * MultiError)
    (entry : string * list string) : api.CoinBalanceParams.t * MultiError :=
  let '(path, values) := entry in
  if EqualFold "Username" path then
    match last values with
    | Some val =>
        if String.eqb val EmptyString then acc
        else ({| api.CoinBalanceParams.Username := val |}, acc.2)
    | None => acc
    end
  else (acc.1, {[ path ]} ∪ acc.2).

(** [schema.NewDecoder()]: the loop over the entries in the order they are
    visited, a later key that names the field overwriting what an earlier
    one left; the error is nil when no key was invalid. *)
Definition NewDecoder : Decoder :=
  {| Decode := λ params entries,
       let r := foldl decodeKey (params, ∅) entries in
       (r.1, if decide (r.2 = ∅) then None else Some r.2) |}.
End schema.

(** ** internal/tools *)

Module tools.
(** The store interface ([DatabaseInterface] of internal/tools/database.go,
    as the README shows it). *)
Record DatabaseInterface := {
  GetUserLoginDetails : string → M ptr;
  GetUserCoins : string → M ptr;
  SetupDatabase : M error;
}.

(** A call through the interface, recorded in the trace. *)
Definition call_GetUserLoginDetails (database : DatabaseInterface)
    (username : string) : M ptr :=
  emit (EvCall mGetUserLoginDetails username);;
  GetUserLoginDetails database username.

Definition call_GetUserCoins (database : DatabaseInterface)
    (username : string) : M ptr :=
  emit (EvCall mGetUserCoins username);;
  GetUserCoins database username.

Definition Second : Z := 1000000000.

Definition Sleep (d : Z) : M unit := emit (EvSleep d).

Definition mockLoginDetails : gmap string LoginDetails.t :=
  {[ "alex" := {| LoginDetails.AuthToken := "123ABC"; LoginDetails.Username := "alex" |};
     "maria" := {| LoginDetails.AuthToken := "456DEF"; LoginDetails.Username := "maria" |};
     "john" := {| LoginDetails.AuthToken := "789GHI"; LoginDetails.Username := "john" |} ]}.

Definition mockCoinDetails : gmap string CoinDetails.t :=
  {[ "alex" := {| CoinDetails.Coins := 1000; CoinDetails.Username := "alex" |};
     "maria" := {| CoinDetails.Coins := 2500; CoinDetails.Username := "maria" |};
     "john" := {| CoinDetails.Coins := 500; CoinDetails.Username := "john" |} ]}.

Definition mockDB_GetUserLoginDetails (username : string) : M ptr :=
  Sleep (Second * 1);;
  tbl ← gets var_mockLoginDetails;
  match tbl !! username with
  | None => mret None
  | Some clientData =>
      p ← new_LoginDetails clientData;
      mret (Some p)
  end.

Definition mockDB_GetUserCoins (username : string) : M ptr :=
  Sleep (Second * 1);;
  tbl ← gets var_mockCoinDetails;
  match tbl !! username with
  | None => mret None
  | Some coinData =>
      p ← new_CoinDetails coinData;
      mret (Some p)
  end.

Definition mockDB_SetupDatabase : M error := mret None.

Definition mockDB : DatabaseInterface :=
  {| GetUserLoginDetails := mockDB_GetUserLoginDetails;
     GetUserCoins := mockDB_GetUserCoins;
     SetupDatabase := mockDB_SetupDatabase |}.

(** The world at process start: the two tables hold their initialisers; no
    number has been drawn yet. *)
Definition start : World :=
  {| var_mockLoginDetails := mockLoginDetails;
     var_mockCoinDetails := mockCoinDetails;
     loginCells := []; coinCells := []; trace := [];
     w := newResponseWriter; rand := [] |}.
End tools.

(** A handler body once [w] is in the world: [func(w, r)]. *)
Definition HandlerFunc : Type := Request → M unit.

(** ** internal/middleware *)

Module middleware.
(** Modelled from the spec: the error value [UnAuthorizedError] of
    internal/middleware/authorization.go, whose declaration is not in the
    sources; the spec and the README give its text. *)
Definition UnAuthorizedError : error := Some "Invalid username or token.".

(** [database] is the store [tools.NewDatabase()] hands back; the middleware
    drops the error of that call. *)
Definition Authorization (database : tools.DatabaseInterface)
    (next : HandlerFunc) : HandlerFunc := λ r,
  let username := Get (Query r) "username" in
  let token := Get (Header r) "Authorization" in
  if (String.eqb username EmptyString || String.eqb token EmptyString)%bool then
    api.RequestErrorHandler UnAuthorizedError
  else
    loginDetails ← tools.call_GetUserLoginDetails database username;
    mismatch ← match loginDetails with
              | None => mret true
              | Some _ =>
                  d ← load_LoginDetails loginDetails;
                  mret (negb (String.eqb token (LoginDetails.AuthToken d)))
              end;
    if (mismatch : bool) then api.RequestErrorHandler UnAuthorizedError
    else next r.
End middleware.

(** ** github.com/sirupsen/logrus *)

Module log.
(** [log.Error(err)] for the error of a decoder. *)
Definition Error (err : schema.MultiError) : M unit := emit (EvLogError err).
End log.

(** ** internal/handlers *)

Module handlers.
(** Modelled from the spec: what [GetCoinBalance] does when [Decode] returns
    an error.  The excerpt of internal/handlers/get_coin_balance.go that the
    README prints leaves every reading of [err] out (as printed, [err] is
    assigned twice and never read); the spec (4.2, step 1) and the
    error-handling section of the README give the check: log the error,
    answer through [InternalErrorHandler], return. *)
Definition decodeFailed (err : schema.MultiError) : M unit :=
  log.Error err;;
  api.InternalErrorHandler.

(** [decoder] is [schema.NewDecoder()], [database] the store
    [tools.NewDatabase()] hands back.  [Decode] ranges over the query; an
    error it returns ends the handler in [decodeFailed].
    [tokenDetails.Coins] is read when the response value is built, before
    anything is written. *)
Definition GetCoinBalance (decoder : schema.Decoder)
    (database : tools.DatabaseInterface) : HandlerFunc := λ r,
  let params := {| api.CoinBalanceParams.Username := EmptyString |} in
  entries ← rangeMap (Query r);
  let '(params, err) := schema.Decode decoder params entries in
  match err with
  | Some e => decodeFailed e
  | None =>
      tokenDetails ← tools.call_GetUserCoins database (api.CoinBalanceParams.Username params);
      d ← load_CoinDetails tokenDetails;
      let response := {| api.CoinBalanceResponse.Balance := CoinDetails.Coins d;
                         api.CoinBalanceResponse.StatusCode := http.StatusOK |} in
      http.Header_Set "Content-Type" "application/json";;
      json.Encode (api.CoinBalanceResponse.Marshal response);;
      mret tt
  end.

(** The route GET /account/coins of [Handler]: the middleware, then the
    handler. *)
Definition Handler (decoder : schema.Decoder)
    (database : tools.DatabaseInterface) : HandlerFunc :=
  middleware.Authorization database (GetCoinBalance decoder database).

(** Serving one request with a handler: it runs on a new response writer;
    a panic aborts the request and no response is produced. *)
Definition serveWith (h : HandlerFunc) (r : Request) (s : World)
    : option ResponseWriter * World :=
  match h r (set_w newResponseWriter s) with
  | (Ok _, s') => (Some (w s'), s')
  | (Panic _, s') => (None, s')
  end.

Definition serve (decoder : schema.Decoder) (database : tools.DatabaseInterface)
    : Request → World → option ResponseWriter * World :=
  serveWith (Handler decoder database).

(** The same request served [n] times in a row. *)
Fixpoint serveN (decoder : schema.Decoder) (database : tools.DatabaseInterface)
    (n : nat) (r : Request) (s : World) : list (option ResponseWriter) * World :=
  match n with
  | O => ([], s)
  | S n' =>
      let '(resp, s1) := serve decoder database r s in
      let '(rest, s2) := serveN decoder database n' r s1 in
      (resp :: rest, s2)
  end.
End handlers.

(** ** Clients of the store *)

(** What a caller can do with the store: look a record up, and write through
    a pointer it holds. *)
Inductive Op :=
| LookupLogin (username : string)
| LookupCoins (username : string)
| WriteLogin (l : loc) (v : LoginDetails.t)
| WriteCoins (l : loc) (v : CoinDetails.t).

Definition runOp (o : Op) : M unit :=
  match o with
  | LookupLogin u => tools.mockDB_GetUserLoginDetails u;; mret tt
  | LookupCoins u => tools.mockDB_GetUserCoins u;; mret tt
  | WriteLogin l v => store_LoginDetails l v
  | WriteCoins l v => store_CoinDetails l v
  end.

Fixpoint runOps (ops : list Op) : M unit :=
  match ops with
  | [] => mret tt
  | o :: rest => runOp o;; runOps rest
  end.

(** ** Responses and requests used in the statements *)

(** What a new response writer holds after one JSON document [text] went out
    under status [code]. *)
Definition jsonResponse (code : Z) (text : string) : ResponseWriter :=
  {| header := {[ "Content-Type" := ["application/json"] ]};
     status := Some code;
     sentHeader := {[ "Content-Type" := ["application/json"] ]};
     body := text +:+ json.newline |}.

(** The response of [Authorization] when it rejects. *)
Definition rejection : ResponseWriter :=
  jsonResponse 400
    (api.Error.Marshal {| api.Error.StatusCode := 400;
                          api.Error.Message := "Invalid username or token." |}).

(** The response of the handler for a balance. *)
Definition balanceResponse (coins : Z) : ResponseWriter :=
  jsonResponse 200
    (api.CoinBalanceResponse.Marshal
       {| api.CoinBalanceResponse.StatusCode := 200;
          api.CoinBalanceResponse.Balance := coins |}).

(** A status that becomes the final status of the response and lets a body
    through. *)
Definition finalWithBody (code : Z) : Prop :=
  (200 ≤ code ≤ 999)%Z ∧ code ≠ 204%Z ∧ code ≠ 304%Z.

(** The response of [InternalErrorHandler]. *)
Definition internalError : ResponseWriter :=
  jsonResponse 500
    (api.Error.Marshal {| api.Error.StatusCode := 500;
                          api.Error.Message := "An Unexpected Error Occured." |}).

(** The bytes of the error document with [code] and [message]: the object
    with the decimal code under StatusCode and the quoted message under
    Message, and the newline of the encoder. *)
Definition errorDocument (code : Z) (message : string) : string :=
  json.lit "{'StatusCode':" +:+ strconv.Itoa code
  +:+ json.lit ",'Message':" +:+ json.String_ message +:+ "}" +:+ json.newline.


(** The two tables of [s'] are those of [s]. *)
Definition sameTables (s s' : World) : Prop :=
  var_mockLoginDetails s' = var_mockLoginDetails s
  ∧ var_mockCoinDetails s' = var_mockCoinDetails s.

(** The test of [Authorization] on a request, against a credential table. *)
Definition credentialsAccepted (tbl : gmap string LoginDetails.t) (r : Request) : bool :=
  let username := Get (Query r) "username" in
  let token := Get (Header r) "Authorization" in
  negb (String.eqb username EmptyString || String.eqb token EmptyString)
  && match tbl !! username with
     | Some d => String.eqb token (LoginDetails.AuthToken d)
     | None => false
     end.

(** [Authorization] hands the request on: run on the new writer of the
    request, it does what the next handler does from some world [s1],
    whichever handler that is. *)
Definition forwarded (database : tools.DatabaseInterface) (r : Request) (s : World) : Prop :=
  ∃ s1, ∀ next : HandlerFunc,
    middleware.Authorization database next r (set_w newResponseWriter s) = next r s1.

(** What the decoder makes of a request in a world: the result of [Decode]
    on a zero [CoinBalanceParams] and the entries of the query in the order
    the world's next [range] visits them. *)
Definition decoded (decoder : schema.Decoder) (r : Request) (s : World)
    : api.CoinBalanceParams.t * option schema.MultiError :=
  schema.Decode decoder {| api.CoinBalanceParams.Username := EmptyString |}
    (rangeOrder (Query r) s).

(** The identity the handler works with. *)
Definition decodedUsername (decoder : schema.Decoder) (r : Request) (s : World) : string :=
  api.CoinBalanceParams.Username (decoded decoder r s).1.

Definition request (query headers : list (string * list string)) : Request :=
  {| Query := list_to_map query; Header := list_to_map headers |}.

Definition alex_request : Request :=
  request [("username", ["alex"])] [("Authorization", ["123ABC"])].

(** The same request with a second query parameter that names no field of
    [CoinBalanceParams]. *)
Definition alex_request_foo : Request :=
  request [("username", ["alex"]); ("foo", ["bar"])] [("Authorization", ["123ABC"])].

(** A request that repeats the username parameter:
    GET /account/coins?username=alex&username=bob with the token of alex. *)
Definition alex_bob_request : Request :=
  request [("username", ["alex"; "bob"])] [("Authorization", ["123ABC"])].

(** GET /account/coins?username=alex&username=maria with the token of
    alex. *)
Definition alex_maria_request : Request :=
  request [("username", ["alex"; "maria"])] [("Authorization", ["123ABC"])].

(** GET /account/coins?username=alex&Username=maria with the token of alex:
    two keys that name the field. *)
Definition alex_Maria_request : Request :=
  request [("username", ["alex"]); ("Username", ["maria"])] [("Authorization", ["123ABC"])].

(** A store whose balance table lacks a user of its credential table. *)
Definition start_without_balances : World :=
  {| var_mockLoginDetails :=
       {[ "alex" := {| LoginDetails.AuthToken := "123ABC"; LoginDetails.Username := "alex" |} ]};
     var_mockCoinDetails := ∅;
     loginCells := []; coinCells := []; trace := [];
     w := newResponseWriter; rand := [] |}.

(** ** Measures on traces and further requests *)

(** The time a trace spent asleep, in nanoseconds. *)
Fixpoint sleptFor (t : list Event) : Z :=
  match t with
  | [] => 0
  | EvSleep d :: rest => d + sleptFor rest
  | _ :: rest => sleptFor rest
  end%Z.

(** The lookups a trace made in the balance table. *)
Fixpoint balanceLookups (t : list Event) : list string :=
  match t with
  | [] => []
  | EvCall mGetUserCoins u :: rest => u :: balanceLookups rest
  | _ :: rest => balanceLookups rest
  end.


(** Entries that name the field are all the same entry. *)
Definition oneFieldEntry (l : list (string * list string)) : Prop :=
  ∀ e1 e2, e1 ∈ l → e2 ∈ l →
    schema.EqualFold "Username" e1.1 = true →
    schema.EqualFold "Username" e2.1 = true → e1 = e2.

(** ** Proof automation *)

(** Unfolds the plumbing of a computation. *)
Ltac run :=
  unfold api.writeError, json.Encode, http.Write, http.Header_Set,
    api.Error_, tools.Sleep, emit, modify, gets, panic,
    mbind, M_bind, mret, M_ret; simpl.

(** * Properties *)

(** ** Running computations *)

Lemma bind_Ok {A B} (m : M A) (f : A → M B) s a s' :
  m s = (Ok a, s') → (m ≫= f) s = f a s'.
Proof. intros H. unfold mbind, M_bind. by rewrite H. Qed.

Lemma bind_Panic {A B} (m : M A) (f : A → M B) s msg s' :
  m s = (Panic msg, s') → (m ≫= f) s = (Panic msg, s').
Proof. intros H. unfold mbind, M_bind. by rewrite H. Qed.

(** ** encoding/json on the two response types *)

Example Marshal_CoinBalanceResponse_1000 :
  api.CoinBalanceResponse.Marshal
    {| api.CoinBalanceResponse.StatusCode := 200; api.CoinBalanceResponse.Balance := 1000 |}
  = json.lit "{'StatusCode':200,'Balance':1000}".
Proof. reflexivity. Qed.

Example Marshal_Error_500 :
  api.Error.Marshal
    {| api.Error.StatusCode := 500; api.Error.Message := "An Unexpected Error Occured." |}
  = json.lit "{'StatusCode':500,'Message':'An Unexpected Error Occured.'}".
Proof. reflexivity. Qed.


(** ** Strings *)

Lemma append_cons c a b : String c a +:+ b = String c (a +:+ b).
Proof. reflexivity. Qed.

Lemma append_assoc a b c : (a +:+ b) +:+ c = a +:+ (b +:+ c).
Proof.
  induction a as [|x a IH]; [done|].
  rewrite !append_cons. by rewrite IH.
Qed.

Lemma length_append a b :
  String.length (a +:+ b) = String.length a + String.length b.
Proof.
  induction a as [|c a IH]; [done|].
  rewrite append_cons. simpl. by rewrite IH.
Qed.

Lemma append_inv_tail t : ∀ a b, a +:+ t = b +:+ t → a = b.
Proof.
  induction a as [|c a IH]; intros [|c' b] H.
  - done.
  - apply (f_equal String.length) in H. rewrite !length_append in H.
    simpl in H. lia.
  - apply (f_equal String.length) in H. rewrite !length_append in H.
    simpl in H. lia.
  - rewrite !append_cons in H. injection H as -> H. f_equal. by apply IH.
Qed.

(** ** api/api.go *)

(** The text [Marshal] gives for an [Error], with the newline of the
    encoder, is the error document. *)
Lemma Marshal_errorDocument code message :
  api.Error.Marshal {| api.Error.StatusCode := code; api.Error.Message := message |}
    +:+ json.newline
  = errorDocument code message.
Proof.
  unfold api.Error.Marshal, json.Object, json.members, errorDocument, json.Int. simpl.
  change (json.String_ "StatusCode") with (json.lit "'StatusCode'").
  change (json.String_ "Message") with (json.lit "'Message'").
  rewrite !append_assoc. reflexivity.
Qed.

Lemma sentUnder_final code h : finalWithBody code → http.sentUnder code h = h.
Proof.
  intros (Hr & H204 & H304). unfold http.sentUnder, http.bodyAllowedForStatus.
  replace (code =? 304)%Z with false by lia.
  replace (100 <=? code)%Z with true by lia.
  replace (code <=? 199)%Z with false by lia.
  replace (code =? 204)%Z with false by lia.
  done.
Qed.

Section ErrorWriters.
Variable s : World.
Hypothesis fresh : status (w s) = None.

Lemma writeError_run message statusCode :
  finalWithBody statusCode →
  api.writeError message statusCode s =
    (Ok tt,
     set_w {| header := <["Content-Type" := ["application/json"]]> (header (w s));
              status := Some statusCode;
              sentHeader := <["Content-Type" := ["application/json"]]> (header (w s));
              body := body (w s) +:+ errorDocument statusCode message |} s).
Proof.
  intros Hf. pose proof Hf as (Hr & H204 & H304).
  run. unfold http.WriteHeader; simpl. rewrite fresh.
  replace (statusCode <? 100)%Z with false by lia.
  replace (999 <? statusCode)%Z with false by lia.
  replace (100 <=? statusCode)%Z with true by lia.
  replace (statusCode <=? 199)%Z with false by lia.
  simpl. unfold http.bodyAllowedForStatus.
  replace (100 <=? statusCode)%Z with true by lia.
  replace (statusCode <=? 199)%Z with false by lia.
  replace (statusCode =? 204)%Z with false by lia.
  replace (statusCode =? 304)%Z with false by lia.
  simpl. rewrite sentUnder_final by done. rewrite Marshal_errorDocument. reflexivity.
Qed.
End ErrorWriters.

Lemma RequestErrorHandler_run s message :
  api.RequestErrorHandler (Some message) s =
    api.writeError message http.StatusBadRequest s.
Proof. reflexivity. Qed.

Lemma finalWithBody_400 : finalWithBody http.StatusBadRequest.
Proof. unfold finalWithBody, http.StatusBadRequest. lia. Qed.

Lemma finalWithBody_500 : finalWithBody http.StatusInternalServerError.
Proof. unfold finalWithBody, http.StatusInternalServerError. lia. Qed.





(** ** internal/tools *)

(** C7. [SetupDatabase] of the reference store returns nil on every call and
    leaves the world, the two tables included, as it was. *)
Theorem SetupDatabase_succeeds (s : World) :
  tools.SetupDatabase tools.mockDB s = (Ok None, s).
Proof. reflexivity. Qed.

(** A lookup in the reference store, through the interface. *)
Lemma call_GetUserLoginDetails_mockDB username s :
  tools.call_GetUserLoginDetails tools.mockDB username s =
    let s1 := set_trace ((trace s ++ [EvCall mGetUserLoginDetails username])
                           ++ [EvSleep (tools.Second * 1)]) s in
    match var_mockLoginDetails s !! username with
    | Some d => (Ok (Some (length (loginCells s))),
                 set_loginCells (loginCells s ++ [d]) s1)
    | None => (Ok None, s1)
    end.
Proof.
  unfold tools.call_GetUserLoginDetails, tools.mockDB, tools.mockDB_GetUserLoginDetails.
  run. destruct (var_mockLoginDetails s !! username); reflexivity.
Qed.

Lemma call_GetUserCoins_mockDB username s :
  tools.call_GetUserCoins tools.mockDB username s =
    let s1 := set_trace ((trace s ++ [EvCall mGetUserCoins username])
                           ++ [EvSleep (tools.Second * 1)]) s in
    match var_mockCoinDetails s !! username with
    | Some d => (Ok (Some (length (coinCells s))),
                 set_coinCells (coinCells s ++ [d]) s1)
    | None => (Ok None, s1)
    end.
Proof.
  unfold tools.call_GetUserCoins, tools.mockDB, tools.mockDB_GetUserCoins.
  run. destruct (var_mockCoinDetails s !! username); reflexivity.
Qed.

Lemma load_new_LoginDetails s s1 d :
  loginCells s1 = loginCells s ++ [d] →
  load_LoginDetails (Some (length (loginCells s))) s1 = (Ok d, s1).
Proof.
  intros H. unfold load_LoginDetails. rewrite H.
  by rewrite list_lookup_middle.
Qed.

Lemma load_new_CoinDetails s s1 d :
  coinCells s1 = coinCells s ++ [d] →
  load_CoinDetails (Some (length (coinCells s))) s1 = (Ok d, s1).
Proof.
  intros H. unfold load_CoinDetails. rewrite H.
  by rewrite list_lookup_middle.
Qed.

(** ** internal/middleware *)

Lemma reject_new s :
  w s = newResponseWriter →
  api.RequestErrorHandler middleware.UnAuthorizedError s = (Ok tt, set_w rejection s).
Proof.
  intros Hw. unfold middleware.UnAuthorizedError.
  rewrite RequestErrorHandler_run.
  rewrite writeError_run; [| by rewrite Hw | apply finalWithBody_400].
  rewrite Hw. reflexivity.
Qed.

Lemma Authorization_missing database next r s :
  Get (Query r) "username" = EmptyString ∨ Get (Header r) "Authorization" = EmptyString →
  middleware.Authorization database next r s =
    api.RequestErrorHandler middleware.UnAuthorizedError s.
Proof.
  intros H. unfold middleware.Authorization.
  destruct H as [-> | ->]; simpl; [done|].
  by rewrite orb_true_r.
Qed.

(** [Authorization] in front of the reference store, case by case. *)
Lemma Authorization_mockDB next r s :
  let username := Get (Query r) "username" in
  let s1 := set_trace ((trace s ++ [EvCall mGetUserLoginDetails username])
                         ++ [EvSleep (tools.Second * 1)]) s in
  middleware.Authorization tools.mockDB next r s =
    if credentialsAccepted (var_mockLoginDetails s) r then
      match var_mockLoginDetails s !! username with
      | Some d => next r (set_loginCells (loginCells s ++ [d]) s1)
      | None => next r s1
      end
    else if (String.eqb username EmptyString
             || String.eqb (Get (Header r) "Authorization") EmptyString)%bool then
      api.RequestErrorHandler middleware.UnAuthorizedError s
    else
      match var_mockLoginDetails s !! username with
      | Some d => api.RequestErrorHandler middleware.UnAuthorizedError
                    (set_loginCells (loginCells s ++ [d]) s1)
      | None => api.RequestErrorHandler middleware.UnAuthorizedError s1
      end.
Proof.
  intros username s1. unfold middleware.Authorization, credentialsAccepted.
  fold username.
  destruct (String.eqb username EmptyString
            || String.eqb (Get (Header r) "Authorization") EmptyString)%bool; [done|].
  simpl negb. cbv iota. rewrite andb_true_l.
  unfold mbind, M_bind. rewrite call_GetUserLoginDetails_mockDB.
  cbv zeta. fold s1.
  destruct (var_mockLoginDetails s !! username) as [d|] eqn:Hd.
  - rewrite (load_new_LoginDetails s _ d) by done. simpl.
    by destruct (String.eqb _ (LoginDetails.AuthToken d)).
  - reflexivity.
Qed.

Lemma Authorization_rejects next r s :
  w s = newResponseWriter →
  credentialsAccepted (var_mockLoginDetails s) r = false →
  ∃ s', middleware.Authorization tools.mockDB next r s = (Ok tt, s')
        ∧ w s' = rejection ∧ sameTables s s'.
Proof.
  intros Hw Hc. rewrite Authorization_mockDB. cbv zeta. rewrite Hc.
  destruct (_ || _)%bool.
  - rewrite reject_new by done. eexists. by split; [|split].
  - destruct (var_mockLoginDetails s !! _);
      (rewrite reject_new by done); eexists; by split; [|split].
Qed.

Lemma Authorization_forwards next r s :
  credentialsAccepted (var_mockLoginDetails s) r = true →
  ∃ s1, middleware.Authorization tools.mockDB next r s = next r s1
        ∧ w s1 = w s ∧ coinCells s1 = coinCells s ∧ sameTables s s1
        ∧ rand s1 = rand s
        ∧ trace s1 = (trace s ++ [EvCall mGetUserLoginDetails (Get (Query r) "username")])
                        ++ [EvSleep (tools.Second * 1)].
Proof.
  intros Hc. rewrite Authorization_mockDB. cbv zeta. rewrite Hc.
  destruct (var_mockLoginDetails s !! _); eexists; (split; [reflexivity|]); done.
Qed.

Lemma credentialsAccepted_true tbl r :
  credentialsAccepted tbl r = true ↔
  Get (Query r) "username" ≠ EmptyString
  ∧ Get (Header r) "Authorization" ≠ EmptyString
  ∧ ∃ d, tbl !! Get (Query r) "username" = Some d
         ∧ LoginDetails.AuthToken d = Get (Header r) "Authorization".
Proof.
  unfold credentialsAccepted.
  rewrite andb_true_iff, negb_true_iff, orb_false_iff, !String.eqb_neq.
  split.
  - intros [[Hu Ht] Hm]. split; [done|]. split; [done|].
    destruct (tbl !! _) as [d|]; [|done].
    exists d. split; [done|]. symmetry. by apply String.eqb_eq.
  - intros (Hu & Ht & d & -> & Hd). split; [done|].
    apply String.eqb_eq. by symmetry.
Qed.

Lemma credentialsAccepted_missing tbl r :
  Get (Query r) "username" = EmptyString ∨ Get (Header r) "Authorization" = EmptyString →
  credentialsAccepted tbl r = false.
Proof.
  intros H. apply not_true_is_false. rewrite credentialsAccepted_true.
  intros (Hu & Ht & _). by destruct H.
Qed.

Lemma credentialsAccepted_wrong_token tbl r d :
  tbl !! Get (Query r) "username" = Some d →
  LoginDetails.AuthToken d ≠ Get (Header r) "Authorization" →
  credentialsAccepted tbl r = false.
Proof.
  intros Hd Hne. apply not_true_is_false. rewrite credentialsAccepted_true.
  intros (_ & _ & d' & Hd' & Heq). congruence.
Qed.

(** C3. A request whose username parameter or Authorization header is empty
    or absent is answered by [Authorization] with status 400, whatever store and
    next handler it stands in front of, and the world is left as it was but
    for the response: nothing was added to the trace, so no lookup was
    made. *)
Theorem Authorization_missing_credentials
    (database : tools.DatabaseInterface) (next : HandlerFunc) (r : Request) (s : World) :
  Get (Query r) "username" = EmptyString ∨ Get (Header r) "Authorization" = EmptyString →
  handlers.serveWith (middleware.Authorization database next) r s
    = (Some rejection, set_w rejection s)
  ∧ status rejection = Some 400%Z
  ∧ trace (set_w rejection s) = trace s.
Proof.
  intros H. split; [|done].
  unfold handlers.serveWith. rewrite Authorization_missing by done.
  by rewrite reject_new.
Qed.

Lemma Authorization_missing_credentials_witness :
  handlers.serveWith
    (middleware.Authorization tools.mockDB
       (handlers.GetCoinBalance schema.NewDecoder tools.mockDB))
    (request [] []) tools.start
  = (Some rejection, set_w rejection tools.start)
  ∧ status rejection = Some 400%Z
  ∧ trace (set_w rejection tools.start) = trace tools.start.
Proof.
  apply (Authorization_missing_credentials tools.mockDB
           (handlers.GetCoinBalance schema.NewDecoder tools.mockDB)
           (request [] []) tools.start).
  left. reflexivity.
Defined.

(** C4. A request without credentials and a request naming a user of the
    store with a token that is not that user's get the same response from
    [Authorization]: the two writers are equal, so status (400) and body are the
    same bytes. *)
Theorem rejections_indistinguishable
    (next1 next2 : HandlerFunc) (r1 r2 : Request) (s1 s2 : World) (d : LoginDetails.t) :
  Get (Query r1) "username" = EmptyString ∨ Get (Header r1) "Authorization" = EmptyString →
  var_mockLoginDetails s2 !! Get (Query r2) "username" = Some d →
  LoginDetails.AuthToken d ≠ Get (Header r2) "Authorization" →
  ∃ resp s1' s2',
    handlers.serveWith (middleware.Authorization tools.mockDB next1) r1 s1 = (Some resp, s1')
    ∧ handlers.serveWith (middleware.Authorization tools.mockDB next2) r2 s2 = (Some resp, s2')
    ∧ status resp = Some 400%Z
    ∧ body resp = json.lit "{'StatusCode':400,'Message':'Invalid username or token.'}"
                  +:+ json.newline.
Proof.
  intros Hmiss Hd Hne.
  destruct (Authorization_rejects next1 r1 (set_w newResponseWriter s1))
    as (s1' & E1 & W1 & _); [done | by apply credentialsAccepted_missing |].
  destruct (Authorization_rejects next2 r2 (set_w newResponseWriter s2))
    as (s2' & E2 & W2 & _);
    [done | by apply (credentialsAccepted_wrong_token _ _ d) |].
  exists rejection, s1', s2'. unfold handlers.serveWith.
  rewrite E1, E2, W1, W2. done.
Qed.

Lemma rejections_indistinguishable_witness :
  ∃ resp s1' s2',
    handlers.serveWith
      (middleware.Authorization tools.mockDB
         (handlers.GetCoinBalance schema.NewDecoder tools.mockDB))
      (request [("username", ["alex"])] []) tools.start = (Some resp, s1')
    ∧ handlers.serveWith
        (middleware.Authorization tools.mockDB
           (handlers.GetCoinBalance schema.NewDecoder tools.mockDB))
        (request [("username", ["alex"])] [("Authorization", ["WRONG"])]) tools.start
      = (Some resp, s2')
    ∧ status resp = Some 400%Z
    ∧ body resp = json.lit "{'StatusCode':400,'Message':'Invalid username or token.'}"
                  +:+ json.newline.
Proof.
  apply (rejections_indistinguishable _ _
           (request [("username", ["alex"])] [])
           (request [("username", ["alex"])] [("Authorization", ["WRONG"])])
           tools.start tools.start
           {| LoginDetails.AuthToken := "123ABC"; LoginDetails.Username := "alex" |}).
  - right. reflexivity.
  - vm_compute. reflexivity.
  - vm_compute. discriminate.
Defined.


(** ** internal/handlers *)

Lemma decodeFailed_new e s :
  w s = newResponseWriter →
  handlers.decodeFailed e s
  = (Ok tt, set_w internalError (set_trace (trace s ++ [EvLogError e]) s)).
Proof.
  intros Hw. unfold handlers.decodeFailed, log.Error, api.InternalErrorHandler.
  erewrite bind_Ok by reflexivity.
  rewrite writeError_run; [| by simpl; rewrite Hw | apply finalWithBody_500].
  simpl. rewrite Hw. reflexivity.
Qed.

(** The handler in front of the reference store: the entries of the query
    are visited in the order the world draws; an error of the decoder ends
    in [decodeFailed]; otherwise the balance table is asked for the decoded
    username, and the result is read through without a test. *)
Lemma GetCoinBalance_mockDB decoder r s :
  let username := decodedUsername decoder r s in
  let s0 := set_rand (drop (length (map_to_list (Query r))) (rand s)) s in
  let s1 := set_trace ((trace s ++ [EvCall mGetUserCoins username])
                         ++ [EvSleep (tools.Second * 1)]) s0 in
  handlers.GetCoinBalance decoder tools.mockDB r s =
    match (decoded decoder r s).2 with
    | Some e => handlers.decodeFailed e s0
    | None =>
        match var_mockCoinDetails s !! username with
        | Some d =>
            (http.Header_Set "Content-Type" "application/json";;
             json.Encode (api.CoinBalanceResponse.Marshal
                            {| api.CoinBalanceResponse.StatusCode := http.StatusOK;
                               api.CoinBalanceResponse.Balance := CoinDetails.Coins d |});;
             mret tt) (set_coinCells (coinCells s ++ [d]) s1)
        | None => (Panic nilDereference, s1)
        end
    end.
Proof.
  intros username s0 s1. unfold handlers.GetCoinBalance.
  subst username. unfold decodedUsername, decoded in *.
  unfold mbind at 1, M_bind at 1, rangeMap. cbv beta iota. fold s0.
  destruct (schema.Decode decoder _ (rangeOrder (Query r) s)) as [params [e|]];
    simpl fst; simpl snd; [done|].
  unfold mbind at 1, M_bind at 1. rewrite call_GetUserCoins_mockDB.
  cbv zeta. simpl var_mockCoinDetails. simpl trace. simpl coinCells. fold s1.
  destruct (var_mockCoinDetails s !! _) as [d|].
  - unfold mbind at 1, M_bind at 1.
    by rewrite (load_new_CoinDetails s0 _ d).
  - reflexivity.
Qed.

(** ** What a served request does, case by case *)

Lemma serve_cases decoder r s :
  let u := Get (Query r) "username" in
  let i := decodedUsername decoder r s in
  let looked := [EvCall mGetUserLoginDetails u; EvSleep (tools.Second * 1)] in
  let fetched := [EvCall mGetUserCoins i; EvSleep (tools.Second * 1)] in
  if credentialsAccepted (var_mockLoginDetails s) r then
    match (decoded decoder r s).2 with
    | Some e => ∃ s', handlers.serve decoder tools.mockDB r s = (Some internalError, s')
                      ∧ trace s' = trace s ++ looked ++ [EvLogError e]
                      ∧ sameTables s s'
    | None =>
        match var_mockCoinDetails s !! i with
        | Some d => ∃ s', handlers.serve decoder tools.mockDB r s
                            = (Some (balanceResponse (CoinDetails.Coins d)), s')
                          ∧ trace s' = trace s ++ looked ++ fetched
                          ∧ sameTables s s'
        | None => ∃ s', handlers.serve decoder tools.mockDB r s = (None, s')
                        ∧ trace s' = trace s ++ looked ++ fetched
                        ∧ sameTables s s'
        end
    end
  else if (String.eqb u EmptyString
           || String.eqb (Get (Header r) "Authorization") EmptyString)%bool then
    handlers.serve decoder tools.mockDB r s = (Some rejection, set_w rejection s)
  else
    ∃ s', handlers.serve decoder tools.mockDB r s = (Some rejection, s')
          ∧ trace s' = trace s ++ looked
          ∧ sameTables s s'.
Proof.
  intros u i looked fetched.
  unfold handlers.serve, handlers.serveWith, handlers.Handler.
  rewrite Authorization_mockDB. cbv zeta. simpl var_mockLoginDetails. fold u.
  destruct (credentialsAccepted (var_mockLoginDetails s) r) eqn:Hc.
  - apply credentialsAccepted_true in Hc as (_ & _ & d & Hd & _). fold u in Hd.
    rewrite Hd. rewrite GetCoinBalance_mockDB. cbv zeta.
    change (decoded decoder r (set_loginCells _ _)) with (decoded decoder r s).
    change (decodedUsername decoder r (set_loginCells _ _)) with i.
    simpl var_mockCoinDetails.
    destruct (decoded decoder r s).2 as [e|].
    + rewrite decodeFailed_new by done.
      eexists. split; [reflexivity|]. simpl. split; [|done].
      by rewrite <- !app_assoc.
    + destruct (var_mockCoinDetails s !! i) as [c|].
      * run. eexists. split; [reflexivity|]. simpl. split; [|done].
        by rewrite <- !app_assoc.
      * eexists. split; [reflexivity|]. simpl. split; [|done].
        by rewrite <- !app_assoc.
  - destruct (_ || _)%bool.
    + by rewrite reject_new.
    + destruct (var_mockLoginDetails s !! u);
        (rewrite reject_new by done); eexists; (split; [reflexivity|]);
        simpl; (split; [|done]); by rewrite <- !app_assoc.
Qed.

(** ** The claims on the handler *)

(** C1, on the code.  The request username=alex&username=maria carrying the
    token of alex presents a credential pair of the store, and alex has a
    balance record, of 1000.  [Authorization] checks the first value; the
    handler's decoder leaves the last one in [params.Username], and the
    response is the 200 document with the balance of maria, 2500. *)
Theorem valid_credentials_answered_with_other_balance :
  Get (Query alex_maria_request) "username" = "alex"
  ∧ Get (Header alex_maria_request) "Authorization" = "123ABC"
  ∧ tools.mockLoginDetails !! "alex"
    = Some {| LoginDetails.AuthToken := "123ABC"; LoginDetails.Username := "alex" |}
  ∧ tools.mockCoinDetails !! "alex"
    = Some {| CoinDetails.Coins := 1000; CoinDetails.Username := "alex" |}
  ∧ ∃ resp s',
      handlers.serve schema.NewDecoder tools.mockDB alex_maria_request tools.start
        = (Some resp, s')
      ∧ status resp = Some 200%Z
      ∧ body resp = json.lit "{'StatusCode':200,'Balance':2500}" +:+ json.newline
      ∧ balanceLookups (trace s') = ["maria"].
Proof.
  split; [vm_compute; reflexivity|]. split; [vm_compute; reflexivity|].
  split; [vm_compute; reflexivity|]. split; [vm_compute; reflexivity|].
  exists (balanceResponse 2500),
    (handlers.serve schema.NewDecoder tools.mockDB alex_maria_request tools.start).2.
  split; [vm_compute; reflexivity|]. split; [reflexivity|].
  split; [reflexivity|]. vm_compute. reflexivity.
Qed.

(** C2, on the code.  With the credentials of alex accepted and no balance
    record for alex, the handler reads through the nil pointer that
    [GetUserCoins] returned: the pipeline panics, and the request gets no
    response, neither 404 nor any other. *)
Theorem absent_balance_record_panics :
  ∃ s',
    handlers.Handler schema.NewDecoder tools.mockDB alex_request start_without_balances
      = (Panic nilDereference, s')
    ∧ handlers.serve schema.NewDecoder tools.mockDB alex_request start_without_balances
      = (None, s')
    ∧ trace s' = [EvCall mGetUserLoginDetails "alex"; EvSleep 1000000000;
                  EvCall mGetUserCoins "alex"; EvSleep 1000000000].
Proof. eexists. split; [|split]; vm_compute; reflexivity. Qed.

(** The decoder's error ends the handler before the store is used, whatever
    the store. *)
Lemma GetCoinBalance_decode_error decoder database r s e :
  (decoded decoder r s).2 = Some e →
  handlers.GetCoinBalance decoder database r s
  = handlers.decodeFailed e
      (set_rand (drop (length (map_to_list (Query r))) (rand s)) s).
Proof.
  unfold decoded, handlers.GetCoinBalance. intros He.
  unfold mbind at 1, M_bind at 1, rangeMap. cbv beta iota.
  destruct (schema.Decode decoder _ (rangeOrder (Query r) s)) as [params err].
  simpl in He. by subst err.
Qed.

(** C5.  When the decoder returns an error for the query of a request, the
    handler, whatever the store, answers with status 500 and the fixed
    document, in the compact encoding and followed by the newline of the
    encoder; the error is logged, and nothing else is added to the trace: no
    lookup is made in the balance store, and tables and cells stay as they
    were. *)
Theorem decode_failure_answers_500
    (decoder : schema.Decoder) (database : tools.DatabaseInterface)
    (r : Request) (s : World) (e : schema.MultiError) :
  (decoded decoder r s).2 = Some e →
  ∃ resp s',
    handlers.serveWith (handlers.GetCoinBalance decoder database) r s = (Some resp, s')
    ∧ status resp = Some 500%Z
    ∧ body resp
      = json.lit "{'StatusCode':500,'Message':'An Unexpected Error Occured.'}"
        +:+ json.newline
    ∧ sentHeader resp !! "Content-Type" = Some ["application/json"]
    ∧ trace s' = trace s ++ [EvLogError e]
    ∧ sameTables s s'
    ∧ loginCells s' = loginCells s ∧ coinCells s' = coinCells s.
Proof.
  intros He. unfold handlers.serveWith.
  rewrite (GetCoinBalance_decode_error decoder database r _ e) by done.
  rewrite decodeFailed_new by done.
  exists internalError. eexists. split; [reflexivity|]. done.
Qed.

(** GET /account/coins?username=alex&foo=bar: the key foo names no field. *)
Lemma decode_failure_answers_500_witness :
  (decoded schema.NewDecoder alex_request_foo tools.start).2 = Some {[ "foo" ]}
  ∧ ∃ resp s',
      handlers.serveWith (handlers.GetCoinBalance schema.NewDecoder tools.mockDB)
        alex_request_foo tools.start = (Some resp, s')
      ∧ status resp = Some 500%Z
      ∧ body resp
        = json.lit "{'StatusCode':500,'Message':'An Unexpected Error Occured.'}"
          +:+ json.newline
      ∧ sentHeader resp !! "Content-Type" = Some ["application/json"]
      ∧ trace s' = trace tools.start ++ [EvLogError {[ "foo" ]}]
      ∧ sameTables tools.start s'
      ∧ loginCells s' = loginCells tools.start ∧ coinCells s' = coinCells tools.start.
Proof.
  assert ((decoded schema.NewDecoder alex_request_foo tools.start).2 = Some {[ "foo" ]})
    as He by (vm_compute; reflexivity).
  split; [exact He|].
  exact (decode_failure_answers_500 schema.NewDecoder tools.mockDB
           alex_request_foo tools.start {[ "foo" ]} He).
Defined.

Lemma RequestErrorHandler_returns s :
  ∃ s', api.RequestErrorHandler middleware.UnAuthorizedError s = (Ok tt, s').
Proof.
  unfold api.RequestErrorHandler, middleware.UnAuthorizedError.
  run. unfold http.WriteHeader. simpl.
  destruct (status (w s)) as [code|] eqn:Hs; simpl; rewrite ?Hs; simpl.
  - destruct (http.bodyAllowedForStatus code); eauto.
  - eauto.
Qed.

(** In front of the reference store, [Authorization] hands a request on exactly
    when its test accepts the credentials. *)
Lemma forwarded_mockDB r s :
  forwarded tools.mockDB r s ↔ credentialsAccepted (var_mockLoginDetails s) r = true.
Proof.
  split.
  - intros [s1 H]. apply not_false_is_true. intros Hc.
    specialize (H (λ _, panic "next")).
    rewrite Authorization_mockDB in H. cbv zeta in H. simpl in H. rewrite Hc in H.
    destruct (_ || _)%bool in H;
      [|destruct (var_mockLoginDetails s !! _) in H];
      match type of H with
      | api.RequestErrorHandler _ ?s0 = _ =>
          destruct (RequestErrorHandler_returns s0) as [s' E]; rewrite E in H
      end; discriminate.
  - intros Hc. unfold forwarded.
    destruct (var_mockLoginDetails s !! Get (Query r) "username") as [d|] eqn:Hd.
    + eexists. intros next. rewrite Authorization_mockDB. cbv zeta. simpl.
      rewrite Hc, Hd. reflexivity.
    + eexists. intros next. rewrite Authorization_mockDB. cbv zeta. simpl.
      rewrite Hc, Hd. reflexivity.
Qed.


(** C8, on the code.  Against the reference data [Authorization] hands on the
    request username=alex&username=bob carrying the token of alex: it reads
    the first value.  The handler's decoder leaves the last value, bob, in
    [params.Username]; [GetUserCoins] returns nil for bob and the handler
    reads through it: the request ends in the nil-dereference panic. *)
Theorem repeated_username_is_forwarded_and_faults :
  Get (Query alex_bob_request) "username" = "alex"
  ∧ decodedUsername schema.NewDecoder alex_bob_request tools.start = "bob"
  ∧ forwarded tools.mockDB alex_bob_request tools.start
  ∧ (∃ s2, tools.GetUserCoins tools.mockDB "bob" tools.start = (Ok None, s2))
  ∧ ∃ s',
      handlers.Handler schema.NewDecoder tools.mockDB alex_bob_request tools.start
        = (Panic nilDereference, s')
      ∧ handlers.serve schema.NewDecoder tools.mockDB alex_bob_request tools.start
        = (None, s')
      ∧ trace s' = [EvCall mGetUserLoginDetails "alex"; EvSleep 1000000000;
                    EvCall mGetUserCoins "bob"; EvSleep 1000000000].
Proof.
  split; [vm_compute; reflexivity|]. split; [vm_compute; reflexivity|].
  split; [|split].
  - apply forwarded_mockDB. vm_compute. reflexivity.
  - eexists. vm_compute. reflexivity.
  - eexists. split; [|split]; vm_compute; reflexivity.
Qed.

(** ** Repeated requests *)

(** C6, on the code.  The request username=alex&Username=maria carrying the
    token of alex has two keys that name the field; the decoder keeps the
    value of the key its loop over the query visits last.  Served twice in a
    row against the same tables, with the loop drawing the one order and then
    the other, the request is answered with the balance of maria and then
    with the balance of alex: the two bodies differ. *)
Theorem same_request_answered_differently :
  let s := set_rand [0; 0; 1; 0] tools.start in
  let run := handlers.serveN schema.NewDecoder tools.mockDB 2 alex_Maria_request s in
  run.1 = [Some (balanceResponse 2500); Some (balanceResponse 1000)]
  ∧ sameTables s run.2
  ∧ body (balanceResponse 2500)
    = json.lit "{'StatusCode':200,'Balance':2500}" +:+ json.newline
  ∧ body (balanceResponse 1000)
    = json.lit "{'StatusCode':200,'Balance':1000}" +:+ json.newline
  ∧ body (balanceResponse 2500) ≠ body (balanceResponse 1000).
Proof.
  cbv zeta. split; [vm_compute; reflexivity|].
  split; [split; vm_compute; reflexivity|].
  split; [reflexivity|]. split; [reflexivity|].
  vm_compute. discriminate.
Qed.

Lemma sameTables_trans s1 s2 s3 : sameTables s1 s2 → sameTables s2 s3 → sameTables s1 s3.
Proof. intros [? ?] [? ?]. split; congruence. Qed.

Lemma sameTables_refl s : sameTables s s.
Proof. by split. Qed.

(** ** The store under lookups and writes through returned pointers *)

Lemma mockDB_GetUserLoginDetails_run username s :
  ∃ s', sameTables s s'
    ∧ match var_mockLoginDetails s !! username with
      | Some d =>
          tools.mockDB_GetUserLoginDetails username s
            = (Ok (Some (length (loginCells s))), s')
          ∧ loginCells s' = loginCells s ++ [d]
      | None =>
          tools.mockDB_GetUserLoginDetails username s = (Ok None, s')
          ∧ loginCells s' = loginCells s
      end.
Proof.
  unfold tools.mockDB_GetUserLoginDetails. run.
  destruct (var_mockLoginDetails s !! username); eexists; (split; [|split; reflexivity]); done.
Qed.

Lemma mockDB_GetUserCoins_run username s :
  ∃ s', sameTables s s'
    ∧ match var_mockCoinDetails s !! username with
      | Some d =>
          tools.mockDB_GetUserCoins username s
            = (Ok (Some (length (coinCells s))), s')
          ∧ coinCells s' = coinCells s ++ [d]
      | None =>
          tools.mockDB_GetUserCoins username s = (Ok None, s')
          ∧ coinCells s' = coinCells s
      end.
Proof.
  unfold tools.mockDB_GetUserCoins. run.
  destruct (var_mockCoinDetails s !! username); eexists; (split; [|split; reflexivity]); done.
Qed.

Lemma runOp_tables o s : ∃ s', runOp o s = (Ok tt, s') ∧ sameTables s s'.
Proof.
  destruct o as [u|u|l v|l v]; simpl.
  - destruct (mockDB_GetUserLoginDetails_run u s) as (s' & T & H).
    exists s'. split; [|done].
    destruct (var_mockLoginDetails s !! u); destruct H as [E _];
      by erewrite bind_Ok by exact E.
  - destruct (mockDB_GetUserCoins_run u s) as (s' & T & H).
    exists s'. split; [|done].
    destruct (var_mockCoinDetails s !! u); destruct H as [E _];
      by erewrite bind_Ok by exact E.
  - eexists. split; [reflexivity|done].
  - eexists. split; [reflexivity|done].
Qed.

Lemma runOps_tables ops : ∀ s, ∃ s', runOps ops s = (Ok tt, s') ∧ sameTables s s'.
Proof.
  induction ops as [|o ops IH]; intros s.
  - exists s. by split.
  - destruct (runOp_tables o s) as (s1 & E1 & T1).
    destruct (IH s1) as (s2 & E2 & T2).
    exists s2. split; [|by apply (sameTables_trans _ s1)].
    simpl. by erewrite bind_Ok by exact E1.
Qed.

(** C9. After any sequence of lookups and of writes through pointers, the
    two tables are what they were, and a lookup returns nil for a user the
    original table lacks and otherwise the address of a new cell, past every
    cell in use, that holds the originally stored record; the cells in use
    are not touched by the lookup. *)
Theorem lookups_return_fresh_copies (ops : list Op) (s : World) (username : string) :
  ∃ s1, runOps ops s = (Ok tt, s1) ∧ sameTables s s1
    ∧ (∃ s2, sameTables s s2
         ∧ match var_mockLoginDetails s !! username with
           | Some d =>
               tools.GetUserLoginDetails tools.mockDB username s1
                 = (Ok (Some (length (loginCells s1))), s2)
               ∧ loginCells s2 = loginCells s1 ++ [d]
           | None =>
               tools.GetUserLoginDetails tools.mockDB username s1 = (Ok None, s2)
               ∧ loginCells s2 = loginCells s1
           end)
    ∧ (∃ s2, sameTables s s2
         ∧ match var_mockCoinDetails s !! username with
           | Some d =>
               tools.GetUserCoins tools.mockDB username s1
                 = (Ok (Some (length (coinCells s1))), s2)
               ∧ coinCells s2 = coinCells s1 ++ [d]
           | None =>
               tools.GetUserCoins tools.mockDB username s1 = (Ok None, s2)
               ∧ coinCells s2 = coinCells s1
           end).
Proof.
  destruct (runOps_tables ops s) as (s1 & E & T).
  exists s1. split; [done|]. split; [done|]. split.
  - destruct (mockDB_GetUserLoginDetails_run username s1) as (s2 & T2 & H).
    exists s2. split; [by apply (sameTables_trans _ s1)|].
    destruct T as [TL _]. by rewrite <- TL.
  - destruct (mockDB_GetUserCoins_run username s1) as (s2 & T2 & H).
    exists s2. split; [by apply (sameTables_trans _ s1)|].
    destruct T as [_ TC]. by rewrite <- TC.
Qed.

(** A record looked up, overwritten through the returned pointer and looked
    up again: the second lookup returns the stored token, in a new cell. *)
Example overwrite_then_lookup :
  ∃ s1 s2,
    runOps [LookupLogin "alex";
            WriteLogin 0 {| LoginDetails.AuthToken := "FORGED"; LoginDetails.Username := "alex" |}]
      tools.start = (Ok tt, s1)
    ∧ loginCells s1 = [{| LoginDetails.AuthToken := "FORGED"; LoginDetails.Username := "alex" |}]
    ∧ tools.GetUserLoginDetails tools.mockDB "alex" s1 = (Ok (Some 1), s2)
    ∧ loginCells s2 !! 1
      = Some {| LoginDetails.AuthToken := "123ABC"; LoginDetails.Username := "alex" |}.
Proof. do 2 eexists. repeat split; vm_compute; reflexivity. Qed.


(** * Further properties of the pipeline *)

Lemma balanceLookups_app t1 t2 :
  balanceLookups (t1 ++ t2) = balanceLookups t1 ++ balanceLookups t2.
Proof.
  induction t1 as [|[d|[] u|e] t1 IH]; simpl; [done|done|done| |done].
  by rewrite IH.
Qed.

Lemma sleptFor_app t1 t2 : sleptFor (t1 ++ t2) = (sleptFor t1 + sleptFor t2)%Z.
Proof.
  induction t1 as [|[d|m u|e] t1 IH]; simpl; [done| |done|done].
  rewrite IH. lia.
Qed.

(** ** internal/middleware: when a request is handed on *)

(** X1. In front of the mock store, [Authorization] hands a request on
    exactly when its username parameter and its Authorization header are
    both non-empty and the credential table has the username with that very
    token (compared byte for byte). *)
Theorem Authorization_forwards_exactly (r : Request) (s : World) :
  forwarded tools.mockDB r s ↔
  Get (Query r) "username" ≠ EmptyString
  ∧ Get (Header r) "Authorization" ≠ EmptyString
  ∧ ∃ d, var_mockLoginDetails s !! Get (Query r) "username" = Some d
         ∧ LoginDetails.AuthToken d = Get (Header r) "Authorization".
Proof. rewrite forwarded_mockDB. apply credentialsAccepted_true. Qed.

Lemma Authorization_forwards_exactly_witness :
  forwarded tools.mockDB alex_request tools.start.
Proof.
  apply (proj2 (Authorization_forwards_exactly alex_request tools.start)).
  split; [vm_compute; discriminate|]. split; [vm_compute; discriminate|].
  exists {| LoginDetails.AuthToken := "123ABC"; LoginDetails.Username := "alex" |}.
  split; vm_compute; reflexivity.
Defined.

(** X2. When the credentials are accepted, the next handler gets the request
    itself and a world in which the response writer, the two tables and the
    balance cells are untouched; the middleware has made one lookup, of the
    username parameter, and has slept one second. *)
Theorem Authorization_forwards_untouched (r : Request) (s : World) (d : LoginDetails.t) :
  Get (Query r) "username" ≠ EmptyString →
  Get (Header r) "Authorization" ≠ EmptyString →
  var_mockLoginDetails s !! Get (Query r) "username" = Some d →
  LoginDetails.AuthToken d = Get (Header r) "Authorization" →
  ∃ s1, (∀ next : HandlerFunc,
           middleware.Authorization tools.mockDB next r s = next r s1)
    ∧ w s1 = w s ∧ sameTables s s1 ∧ coinCells s1 = coinCells s
    ∧ loginCells s1 = loginCells s ++ [d]
    ∧ trace s1 = trace s ++ [EvCall mGetUserLoginDetails (Get (Query r) "username");
                              EvSleep 1000000000].
Proof.
  intros Hu Ht Hd Htok.
  assert (credentialsAccepted (var_mockLoginDetails s) r = true) as Hc.
  { apply credentialsAccepted_true. eauto 6. }
  eexists. split.
  - intros next. rewrite Authorization_mockDB. cbv zeta. rewrite Hc, Hd. reflexivity.
  - simpl. repeat split. by rewrite <- app_assoc.
Qed.

Lemma Authorization_forwards_untouched_witness :
  ∃ s1, (∀ next : HandlerFunc,
           middleware.Authorization tools.mockDB next alex_request tools.start = next alex_request s1)
    ∧ w s1 = w tools.start ∧ sameTables tools.start s1
    ∧ coinCells s1 = coinCells tools.start
    ∧ loginCells s1 = loginCells tools.start
        ++ [{| LoginDetails.AuthToken := "123ABC"; LoginDetails.Username := "alex" |}]
    ∧ trace s1 = trace tools.start
        ++ [EvCall mGetUserLoginDetails (Get (Query alex_request) "username");
            EvSleep 1000000000].
Proof.
  apply (Authorization_forwards_untouched alex_request tools.start
           {| LoginDetails.AuthToken := "123ABC"; LoginDetails.Username := "alex" |}).
  - vm_compute. discriminate.
  - vm_compute. discriminate.
  - vm_compute. reflexivity.
  - vm_compute. reflexivity.
Defined.

(** ** The pipeline: what it answers, and when it asks for a balance *)

(** X3. When the decoder returns no error for the query, whatever response
    the pipeline in front of the mock store produces is the 400 rejection or
    a 200 balance document for a record of the balance table: no such run
    answers 404 or 500. *)
Theorem serve_answers_200_or_400
    (decoder : schema.Decoder) (r : Request) (s s' : World) (resp : ResponseWriter) :
  (decoded decoder r s).2 = None →
  handlers.serve decoder tools.mockDB r s = (Some resp, s') →
  (resp = rejection ∧ status resp = Some 400%Z)
  ∨ (∃ d, var_mockCoinDetails s !! decodedUsername decoder r s = Some d
          ∧ resp = balanceResponse (CoinDetails.Coins d)
          ∧ status resp = Some 200%Z).
Proof.
  intros He E. pose proof (serve_cases decoder r s) as H. cbv zeta in H.
  rewrite He in H.
  destruct (credentialsAccepted (var_mockLoginDetails s) r).
  - destruct (var_mockCoinDetails s !! decodedUsername decoder r s) as [d|];
      destruct H as (s1 & E1 & _); rewrite E1 in E; [|discriminate].
    injection E as <- _. right. by exists d.
  - destruct (_ || _)%bool.
    + rewrite H in E. injection E as <- _. by left.
    + destruct H as (s1 & E1 & _). rewrite E1 in E. injection E as <- _. by left.
Qed.

Lemma serve_answers_200_or_400_witness :
  (balanceResponse 1000 = rejection ∧ status (balanceResponse 1000) = Some 400%Z)
  ∨ (∃ d, var_mockCoinDetails tools.start
            !! decodedUsername schema.NewDecoder alex_request tools.start = Some d
          ∧ balanceResponse 1000 = balanceResponse (CoinDetails.Coins d)
          ∧ status (balanceResponse 1000) = Some 200%Z).
Proof.
  apply (serve_answers_200_or_400 schema.NewDecoder alex_request tools.start
           (handlers.serve schema.NewDecoder tools.mockDB alex_request tools.start).2).
  - vm_compute. reflexivity.
  - vm_compute. reflexivity.
Defined.

(** X4. A balance is disclosed only against valid credentials: when the
    response has status 200, the username parameter and the Authorization
    header were non-empty and the header was the stored token of that
    username. *)
Theorem balance_only_with_valid_token
    (decoder : schema.Decoder) (r : Request) (s s' : World) (resp : ResponseWriter) :
  handlers.serve decoder tools.mockDB r s = (Some resp, s') →
  status resp = Some 200%Z →
  Get (Query r) "username" ≠ EmptyString
  ∧ Get (Header r) "Authorization" ≠ EmptyString
  ∧ ∃ d, var_mockLoginDetails s !! Get (Query r) "username" = Some d
         ∧ LoginDetails.AuthToken d = Get (Header r) "Authorization".
Proof.
  intros E Hs. apply credentialsAccepted_true.
  pose proof (serve_cases decoder r s) as H. cbv zeta in H.
  destruct (credentialsAccepted (var_mockLoginDetails s) r); [done|].
  destruct (_ || _)%bool.
  - rewrite H in E. injection E as <- _. discriminate.
  - destruct H as (s1 & E1 & _). rewrite E1 in E. injection E as <- _. discriminate.
Qed.

Lemma balance_only_with_valid_token_witness :
  Get (Query alex_request) "username" ≠ EmptyString
  ∧ Get (Header alex_request) "Authorization" ≠ EmptyString
  ∧ ∃ d, var_mockLoginDetails tools.start !! Get (Query alex_request) "username" = Some d
         ∧ LoginDetails.AuthToken d = Get (Header alex_request) "Authorization".
Proof.
  apply (balance_only_with_valid_token schema.NewDecoder alex_request tools.start
           (handlers.serve schema.NewDecoder tools.mockDB alex_request tools.start).2
           (balanceResponse 1000)).
  - vm_compute. reflexivity.
  - reflexivity.
Defined.


(** X5. The balance table is asked only on behalf of accepted credentials:
    serving a request that [Authorization] does not hand on adds no balance
    lookup to the trace, and serving one that it hands on and for whose query
    the decoder returns no error adds exactly one, for the identity the
    handler decodes. *)
Theorem balance_lookup_only_after_acceptance
    (decoder : schema.Decoder) (r : Request) (s : World) :
  let after := trace (handlers.serve decoder tools.mockDB r s).2 in
  (¬ forwarded tools.mockDB r s →
     balanceLookups after = balanceLookups (trace s))
  ∧ (forwarded tools.mockDB r s → (decoded decoder r s).2 = None →
     balanceLookups after = balanceLookups (trace s) ++ [decodedUsername decoder r s]).
Proof.
  cbv zeta. rewrite forwarded_mockDB.
  pose proof (serve_cases decoder r s) as H. cbv zeta in H.
  destruct (credentialsAccepted (var_mockLoginDetails s) r); split; try done.
  - intros _ He. rewrite He in H.
    destruct (var_mockCoinDetails s !! decodedUsername decoder r s);
      destruct H as (s1 & E & T & _); rewrite E; simpl; rewrite T;
      by rewrite balanceLookups_app.
  - intros _. destruct (_ || _)%bool.
    + by rewrite H.
    + destruct H as (s1 & E & T & _). rewrite E. simpl. rewrite T.
      rewrite balanceLookups_app. simpl. by rewrite app_nil_r.
Qed.

Lemma balance_lookup_only_after_acceptance_witness :
  ¬ forwarded tools.mockDB (request [("username", ["alex"])] [("Authorization", ["WRONG"])])
      tools.start
  ∧ balanceLookups
      (trace (handlers.serve schema.NewDecoder tools.mockDB
                (request [("username", ["alex"])] [("Authorization", ["WRONG"])])
                tools.start).2)
    = balanceLookups (trace tools.start).
Proof.
  assert (¬ forwarded tools.mockDB
            (request [("username", ["alex"])] [("Authorization", ["WRONG"])]) tools.start)
    as Hn.
  { rewrite forwarded_mockDB. vm_compute. discriminate. }
  split; [exact Hn|].
  exact (proj1 (balance_lookup_only_after_acceptance schema.NewDecoder
                  (request [("username", ["alex"])] [("Authorization", ["WRONG"])])
                  tools.start) Hn).
Defined.

(** X6. The time a request spends in the simulated latency of the mock
    store: nothing when a credential is missing, one second when the
    credentials are looked up and refused, two seconds when they are accepted
    and the decoder returns no error (one per lookup), whether or not the
    balance is found. *)
Theorem serve_latency (decoder : schema.Decoder) (r : Request) (s : World) :
  let after := sleptFor (trace (handlers.serve decoder tools.mockDB r s).2) in
  let missing := Get (Query r) "username" = EmptyString
                 ∨ Get (Header r) "Authorization" = EmptyString in
  (missing → after = sleptFor (trace s))
  ∧ (¬ missing → ¬ forwarded tools.mockDB r s →
     after = (sleptFor (trace s) + 1000000000)%Z)
  ∧ (forwarded tools.mockDB r s → (decoded decoder r s).2 = None →
     after = (sleptFor (trace s) + 2000000000)%Z).
Proof.
  cbv zeta. rewrite forwarded_mockDB.
  pose proof (serve_cases decoder r s) as H. cbv zeta in H.
  destruct (credentialsAccepted (var_mockLoginDetails s) r) eqn:Hc.
  - split; [|split].
    + intros Hm. by rewrite credentialsAccepted_missing in Hc.
    + done.
    + intros _ He. rewrite He in H.
      destruct (var_mockCoinDetails s !! decodedUsername decoder r s);
        destruct H as (s1 & E & T & _); rewrite E; simpl; rewrite T;
        rewrite sleptFor_app; simpl; unfold tools.Second; lia.
  - split; [|split]; [| |done].
    + intros Hm.
      replace (_ || _)%bool with true in H; [by rewrite H|].
      symmetry. apply orb_true_iff. rewrite !String.eqb_eq. done.
    + intros Hm _.
      replace (_ || _)%bool with false in H.
      * destruct H as (s1 & E & T & _). rewrite E. simpl. rewrite T.
        rewrite sleptFor_app. simpl. unfold tools.Second. lia.
      * symmetry. apply orb_false_iff. rewrite !String.eqb_neq.
        split; intros E; apply Hm; auto.
Qed.

Lemma serve_latency_witness :
  forwarded tools.mockDB alex_request tools.start
  ∧ (decoded schema.NewDecoder alex_request tools.start).2 = None
  ∧ sleptFor (trace (handlers.serve schema.NewDecoder tools.mockDB alex_request tools.start).2)
    = (sleptFor (trace tools.start) + 2000000000)%Z.
Proof.
  assert (forwarded tools.mockDB alex_request tools.start) as Hf.
  { apply forwarded_mockDB. vm_compute. reflexivity. }
  assert ((decoded schema.NewDecoder alex_request tools.start).2 = None) as He
    by (vm_compute; reflexivity).
  split; [exact Hf|]. split; [exact He|].
  exact (proj2 (proj2 (serve_latency schema.NewDecoder alex_request tools.start)) Hf He).
Defined.

(** ** internal/handlers: the handler on its own *)



(** ** api/api.go: the error writer outside its usual conditions *)




(** X9. A status code outside 100..999 makes [writeError] panic on a writer
    whose header is still to be sent, with the message of net/http that ends
    in the code: the Content-Type entry is already in the header map, but no
    header goes out and nothing is written to the body. *)
Theorem writeError_invalid_status_panics (s : World) (message : string) (statusCode : Z) :
  status (w s) = None →
  (statusCode < 100 ∨ 999 < statusCode)%Z →
  ∃ s', api.writeError message statusCode s
          = (Panic ("invalid WriteHeader code " +:+ strconv.Itoa statusCode), s')
    ∧ status (w s') = None
    ∧ sentHeader (w s') = sentHeader (w s)
    ∧ body (w s') = body (w s)
    ∧ header (w s') !! "Content-Type" = Some ["application/json"].
Proof.
  intros Hs Hc. run. unfold http.WriteHeader. simpl. rewrite Hs.
  replace ((statusCode <? 100) || (999 <? statusCode))%Z with true by lia.
  eexists. split; [reflexivity|]. simpl. split; [done|]. split; [done|].
  split; [done|]. apply lookup_insert_eq.
Qed.

Lemma writeError_invalid_status_panics_witness :
  ∃ s', api.writeError "zero" 0 tools.start
          = (Panic ("invalid WriteHeader code " +:+ strconv.Itoa 0), s')
    ∧ status (w s') = None
    ∧ sentHeader (w s') = sentHeader (w tools.start)
    ∧ body (w s') = body (w tools.start)
    ∧ header (w s') !! "Content-Type" = Some ["application/json"].
Proof.
  apply (writeError_invalid_status_panics tools.start "zero" 0).
  - reflexivity.
  - lia.
Defined.

(** X10. With status 204 or 304 on a writer whose header is still to be
    sent, [writeError] sends the header under that status and the error
    document is dropped: the body stays as it was.  Under 204 the
    Content-Type that [writeError] set goes out with the header; under 304
    it is removed from the header that is sent, though it stays in the
    header map. *)
Theorem writeError_status_without_body (s : World) (message : string) (statusCode : Z) :
  status (w s) = None →
  statusCode = 204%Z ∨ statusCode = 304%Z →
  ∃ s', api.writeError message statusCode s = (Ok tt, s')
    ∧ status (w s') = Some statusCode
    ∧ sentHeader (w s') !! "Content-Type"
      = (if (statusCode =? 304)%Z then None else Some ["application/json"])
    ∧ header (w s') !! "Content-Type" = Some ["application/json"]
    ∧ body (w s') = body (w s).
Proof.
  intros Hs [-> | ->]; run; unfold http.WriteHeader; simpl; rewrite Hs; simpl;
    (eexists; split; [reflexivity|]; simpl; split; [done|]).
  - split; [|split; [|done]]; [|apply lookup_insert_eq].
    unfold http.sentUnder. simpl.
    rewrite !lookup_delete_ne by done. apply lookup_insert_eq.
  - split; [|split; [|done]]; [|apply lookup_insert_eq].
    unfold http.sentUnder. simpl. apply lookup_delete_eq.
Qed.

Lemma writeError_status_without_body_witness :
  ∃ s', api.writeError "none" 304 tools.start = (Ok tt, s')
    ∧ status (w s') = Some 304%Z
    ∧ sentHeader (w s') !! "Content-Type" = (if (304 =? 304)%Z then None
                                             else Some ["application/json"])
    ∧ header (w s') !! "Content-Type" = Some ["application/json"]
    ∧ body (w s') = body (w tools.start).
Proof.
  apply (writeError_status_without_body tools.start "none" 304).
  - reflexivity.
  - right. reflexivity.
Defined.

(** ** internal/tools: the pointers the mock store returns *)

(** X11. Two lookups of the same user return two different pointers, and the
    records behind them are independent: after a write through the first,
    the first reads back what was written and the second still reads the
    stored record. *)
Theorem lookups_do_not_alias (username : string) (s : World) (d v : LoginDetails.t) :
  var_mockLoginDetails s !! username = Some d →
  ∃ p1 p2 s1 s2 s3,
    tools.GetUserLoginDetails tools.mockDB username s = (Ok (Some p1), s1)
    ∧ tools.GetUserLoginDetails tools.mockDB username s1 = (Ok (Some p2), s2)
    ∧ p1 ≠ p2
    ∧ store_LoginDetails p1 v s2 = (Ok tt, s3)
    ∧ load_LoginDetails (Some p1) s3 = (Ok v, s3)
    ∧ load_LoginDetails (Some p2) s3 = (Ok d, s3)
    ∧ sameTables s s3.
Proof.
  intros Hd.
  destruct (mockDB_GetUserLoginDetails_run username s) as (s1 & [TL1 TC1] & H1).
  rewrite Hd in H1. destruct H1 as [E1 C1].
  destruct (mockDB_GetUserLoginDetails_run username s1) as (s2 & [TL2 TC2] & H2).
  rewrite TL1, Hd in H2. destruct H2 as [E2 C2].
  exists (length (loginCells s)), (length (loginCells s1)), s1, s2.
  eexists. split; [exact E1|]. split; [exact E2|].
  split; [rewrite C1, length_app; simpl; lia|].
  split; [reflexivity|].
  unfold load_LoginDetails. simpl. rewrite C2, C1.
  split; [|split].
  - rewrite list_lookup_insert_eq; [done|].
    rewrite !length_app. simpl. lia.
  - rewrite list_lookup_insert_ne by (rewrite length_app; simpl; lia).
    by rewrite list_lookup_middle.
  - split; simpl; congruence.
Qed.

Lemma lookups_do_not_alias_witness :
  ∃ p1 p2 s1 s2 s3,
    tools.GetUserLoginDetails tools.mockDB "alex" tools.start = (Ok (Some p1), s1)
    ∧ tools.GetUserLoginDetails tools.mockDB "alex" s1 = (Ok (Some p2), s2)
    ∧ p1 ≠ p2
    ∧ store_LoginDetails p1
        {| LoginDetails.AuthToken := "FORGED"; LoginDetails.Username := "alex" |} s2
      = (Ok tt, s3)
    ∧ load_LoginDetails (Some p1) s3
      = (Ok {| LoginDetails.AuthToken := "FORGED"; LoginDetails.Username := "alex" |}, s3)
    ∧ load_LoginDetails (Some p2) s3
      = (Ok {| LoginDetails.AuthToken := "123ABC"; LoginDetails.Username := "alex" |}, s3)
    ∧ sameTables tools.start s3.
Proof.
  apply (lookups_do_not_alias "alex" tools.start
           {| LoginDetails.AuthToken := "123ABC"; LoginDetails.Username := "alex" |}
           {| LoginDetails.AuthToken := "FORGED"; LoginDetails.Username := "alex" |}).
  vm_compute. reflexivity.
Defined.

(** ** The default decoder and the order of the query keys *)

Lemma insertAt_Permutation {A} (i : nat) (x : A) (l : list A) :
  insertAt i x l ≡ₚ x :: l.
Proof.
  revert i. induction l as [|y l IH]; intros [|i]; simpl; try done.
  rewrite IH. apply Permutation_swap.
Qed.

Lemma permute_Permutation {A} (seed : list nat) (l : list A) : permute seed l ≡ₚ l.
Proof.
  revert seed. induction l as [|x l IH]; intros seed; simpl; [done|].
  by rewrite insertAt_Permutation, IH.
Qed.

Lemma rangeOrder_Permutation m s : rangeOrder m s ≡ₚ map_to_list m.
Proof. apply permute_Permutation. Qed.


Lemma decodeKey_swap acc e1 e2 :
  (schema.EqualFold "Username" e1.1 = true →
   schema.EqualFold "Username" e2.1 = true → e1 = e2) →
  schema.decodeKey (schema.decodeKey acc e1) e2
  = schema.decodeKey (schema.decodeKey acc e2) e1.
Proof.
  destruct e1 as [k1 v1], e2 as [k2 v2], acc as [p e]. simpl. intros H.
  unfold schema.decodeKey.
  destruct (schema.EqualFold "Username" k1) eqn:E1,
           (schema.EqualFold "Username" k2) eqn:E2.
  - by injection (H eq_refl eq_refl) as -> ->.
  - destruct (last v1) as [x|]; [destruct (String.eqb x EmptyString)|]; done.
  - destruct (last v2) as [x|]; [destruct (String.eqb x EmptyString)|]; done.
  - simpl. f_equal. by rewrite !(assoc_L (∪)), (comm_L (∪) {[k2]}).
Qed.

Lemma foldl_decodeKey_Permutation l l' :
  l ≡ₚ l' → oneFieldEntry l →
  ∀ acc, foldl schema.decodeKey acc l = foldl schema.decodeKey acc l'.
Proof.
  induction 1 as [|x l l' HP IH|x y l|l l' l'' HP1 IH1 HP2 IH2]; intros Hone acc.
  - done.
  - simpl. apply IH. intros e1 e2 H1 H2. apply Hone; by apply elem_of_cons; right.
  - simpl. f_equal. apply decodeKey_swap. apply Hone; set_solver.
  - rewrite IH1 by done. apply IH2.
    intros e1 e2 H1 H2. apply Hone; by rewrite HP1.
Qed.

Lemma oneFieldEntry_map_to_list (m : Values) :
  (∀ k1 k2, is_Some (m !! k1) → is_Some (m !! k2) →
     schema.EqualFold "Username" k1 = true →
     schema.EqualFold "Username" k2 = true → k1 = k2) →
  ∀ s, oneFieldEntry (rangeOrder m s).
Proof.
  intros H s [k1 v1] [k2 v2] H1 H2 E1 E2. simpl in *.
  rewrite rangeOrder_Permutation in H1, H2.
  apply elem_of_map_to_list in H1, H2.
  assert (k1 = k2) as -> by (apply H; eauto).
  congruence.
Qed.


(** ** The pipeline with the default decoder *)





(** ** encoding/json: what the balance document determines *)

Lemma Int_inj z1 z2 : json.Int z1 = json.Int z2 → z1 = z2.
Proof.
  unfold json.Int, strconv.Itoa. intros H. apply DecimalZ.to_int_inj.
  assert (∀ z, Z.to_int z ≠ Decimal.Pos Decimal.Nil
               ∧ Z.to_int z ≠ Decimal.Neg Decimal.Nil) as Hnn.
  { intros [|p|p]; simpl; split; try discriminate;
      intros [= E]; by apply (DecimalPos.Unsigned.to_uint_nonnil p). }
  apply (f_equal NilZero.int_of_string) in H.
  rewrite !NilZero.isi in H by apply Hnn.
  by injection H.
Qed.

(** X14. The body of a 200 response determines the balance: two balance
    documents with the same bytes carry the same balance. *)
Theorem balance_document_determines_balance (c1 c2 : Z) :
  body (balanceResponse c1) = body (balanceResponse c2) → c1 = c2.
Proof.
  intros H. apply Int_inj.
  assert (∀ c, body (balanceResponse c)
               = (json.lit "{'StatusCode':200,'Balance':" +:+ (json.Int c +:+ "}"))
                 +:+ json.newline) as E by reflexivity.
  rewrite !E in H.
  apply append_inv_tail in H. apply (inj _) in H.
  by apply append_inv_tail in H.
Qed.

Lemma balance_document_determines_balance_witness : 1000%Z = 1000%Z.
Proof.
  apply (balance_document_determines_balance 1000 1000). reflexivity.
Defined.

(** ** The middleware and the handler against any store *)





(** ** The reference data *)





(** ** The identity the pipeline answers for, and the order of the query keys *)

(** X18. When the username parameter and the Authorization header of a
    request are a credential pair of the store, the decoder returns no error
    for the query and the identity it decodes has a balance record, the
    response has status 200, its body is the compact JSON document with the
    balance of the decoded identity followed by a newline, and the tables
    are as they were. *)
Theorem accepted_request_answered_for_decoded_identity
    (decoder : schema.Decoder) (r : Request) (s : World)
    (login : LoginDetails.t) (coins : CoinDetails.t) :
  Get (Query r) "username" ≠ EmptyString →
  Get (Header r) "Authorization" ≠ EmptyString →
  var_mockLoginDetails s !! Get (Query r) "username" = Some login →
  LoginDetails.AuthToken login = Get (Header r) "Authorization" →
  (decoded decoder r s).2 = None →
  var_mockCoinDetails s !! decodedUsername decoder r s = Some coins →
  ∃ resp s',
    handlers.serve decoder tools.mockDB r s = (Some resp, s')
    ∧ status resp = Some 200%Z
    ∧ body resp = (json.lit "{'StatusCode':200,'Balance':"
                     +:+ (strconv.Itoa (CoinDetails.Coins coins) +:+ "}"))
                  +:+ json.newline
    ∧ sentHeader resp !! "Content-Type" = Some ["application/json"]
    ∧ sameTables s s'.
Proof.
  intros Hu Ht Hl Htok He Hc.
  assert (credentialsAccepted (var_mockLoginDetails s) r = true) as Hacc.
  { apply credentialsAccepted_true. eauto 6. }
  pose proof (serve_cases decoder r s) as H. cbv zeta in H.
  rewrite Hacc, He, Hc in H. destruct H as (s' & E & _ & T).
  exists (balanceResponse (CoinDetails.Coins coins)), s'.
  split; [exact E|]. split; [reflexivity|]. split; [reflexivity|].
  split; [reflexivity|exact T].
Qed.

Lemma accepted_request_answered_for_decoded_identity_witness :
  ∃ resp s',
    handlers.serve schema.NewDecoder tools.mockDB alex_maria_request tools.start
      = (Some resp, s')
    ∧ status resp = Some 200%Z
    ∧ body resp = (json.lit "{'StatusCode':200,'Balance':"
                     +:+ (strconv.Itoa
                            (CoinDetails.Coins
                               {| CoinDetails.Coins := 2500;
                                  CoinDetails.Username := "maria" |}) +:+ "}"))
                  +:+ json.newline
    ∧ sentHeader resp !! "Content-Type" = Some ["application/json"]
    ∧ sameTables tools.start s'.
Proof.
  apply (accepted_request_answered_for_decoded_identity schema.NewDecoder
           alex_maria_request tools.start
           {| LoginDetails.AuthToken := "123ABC"; LoginDetails.Username := "alex" |}
           {| CoinDetails.Coins := 2500; CoinDetails.Username := "maria" |}).
  - vm_compute. discriminate.
  - vm_compute. discriminate.
  - vm_compute. reflexivity.
  - vm_compute. reflexivity.
  - vm_compute. reflexivity.
  - vm_compute. reflexivity.
Defined.

(** X19. With the default decoder, what [Decode] leaves in the parameters
    and the error it returns do not depend on the order in which the keys of
    the query are visited, when at most one key of the query names the field
    Username, letter case apart. *)
Theorem decode_independent_of_key_order (r : Request) (s1 s2 : World) :
  (∀ k1 k2, is_Some (Query r !! k1) → is_Some (Query r !! k2) →
     schema.EqualFold "Username" k1 = true →
     schema.EqualFold "Username" k2 = true → k1 = k2) →
  decoded schema.NewDecoder r s1 = decoded schema.NewDecoder r s2.
Proof.
  intros H. unfold decoded, schema.NewDecoder. simpl.
  rewrite (foldl_decodeKey_Permutation (rangeOrder (Query r) s1) (rangeOrder (Query r) s2)).
  - done.
  - by rewrite !rangeOrder_Permutation.
  - by apply oneFieldEntry_map_to_list.
Qed.

Lemma decode_independent_of_key_order_witness :
  decoded schema.NewDecoder alex_request_foo (set_rand [1; 0] tools.start)
  = decoded schema.NewDecoder alex_request_foo tools.start.
Proof.
  apply (decode_independent_of_key_order alex_request_foo
           (set_rand [1; 0] tools.start) tools.start).
  intros k1 k2 [x1 H1] [x2 H2] E1 E2.
  assert (∀ k x, Query alex_request_foo !! k = Some x →
                 schema.EqualFold "Username" k = true → k = "username") as Hk.
  { intros k x Hx Hf. unfold alex_request_foo, request in Hx. simpl in Hx.
    destruct (decide (k = "username")) as [->|Hn1]; [done|].
    rewrite lookup_insert_ne in Hx by done.
    destruct (decide (k = "foo")) as [->|Hn2]; [vm_compute in Hf; discriminate|].
    rewrite lookup_insert_ne in Hx by done.
    rewrite lookup_empty in Hx. discriminate. }
  rewrite (Hk k1 x1 H1 E1), (Hk k2 x2 H2 E2). reflexivity.
Defined.
